(** * pve_cloud_rpc.server: the gRPC shim of the pve-cloud provider

    A shallow embedding of [src/pve_cloud_rpc/server.py].  The module is a
    request handler that calls three functions imported from [pve_cloud]
    one after the other, and a [serve] coroutine that configures and starts
    a [grpc.aio] server.  All the calls leave the module, so the embedding
    keeps them as events of a small program monad; an interpreter runs a
    program against an arbitrary implementation of the outside and records
    every call together with its outcome. *)

From Stdlib Require Import List ZArith DecimalString.
From stdpp Require Import gmap strings list.
Import ListNotations.

Open Scope string_scope.

(** ** Values that come from outside the module *)

(** Python is untyped; the types below are the ones the imported functions
    and the [grpc] runtime hand to this module.  They are never inspected
    here, so they stay abstract. *)
Class Externals := {
  Host : Type;              (* what get_online_pve_host returns *)
  ClusterVars : Type;       (* first component of get_cloud_env's result *)
  PatroniPass : Type;       (* second component *)
  BindInternalKey : Type;   (* third component *)
  Exn : Type;               (* exception objects *)
  PyObj : Type;             (* values held by attributes and globals *)
  ServicerContext : Type;   (* grpc.aio.ServicerContext *)
  Server : Type;            (* grpc.aio.Server *)
  Interceptor : Type;       (* grpc.aio.ServerInterceptor *)
  ServerCredentials : Type; (* grpc.ServerCredentials *)
  World : Type;             (* everything outside the process *)
}.

(** A reference to an object of the Python heap. *)
Definition ref := positive.

(** A protobuf message, seen as the map from the names of its set fields to
    their values.  Reading a string field that is not set gives the empty
    string. *)
Abbreviation message := (gmap string string).

Definition msg_get (m : message) (field : string) : string :=
  default "" (m !! field).

Section Program.
Context `{Ext : Externals}.

(** ** Outcomes of a call *)

Inductive outcome (A : Type) : Type :=
| Returned (a : A)    (* the call returned [a] *)
| Raised (e : Exn)    (* the call raised [e] *)
| Blocked.            (* the call never comes back *)

Arguments Returned {A} a.
Arguments Raised {A} e.
Arguments Blocked {A}.

(** ** Calls that leave the module *)

Inductive call : Type -> Type :=
(* from pve_cloud.lib.inventory import * ; from pve_cloud.cli.pvclu import ... *)
| get_online_pve_host (target_pve : string) : call Host
| get_cloud_env (online_pve_host : Host)
    : call (ClusterVars * PatroniPass * BindInternalKey)
| get_ssh_master_kubeconfig (cluster_vars : ClusterVars) (stack_name : string)
    : call string
(* grpc.aio *)
| grpc_aio_server (interceptors : list Interceptor)
    (options : list (string * string)) : call Server
| add_CloudServiceServicer_to_server (servicer : ref) (server : Server)
    : call unit
| add_insecure_port (server : Server) (address : string) : call Z
| add_secure_port (server : Server) (address : string)
    (server_credentials : ServerCredentials) : call Z
| start (server : Server) : call unit
| wait_for_termination (server : Server) (timeout : option Z) : call bool
(* methods of the context object handed to a handler *)
| time_remaining (context : ServicerContext) : call (option Z)
| cancelled (context : ServicerContext) : call bool
| abort (context : ServicerContext) (details : string) : call Empty_set
(* builtins *)
| print (line : string) : call unit.

(** The name under which the source refers to the callee. *)
Definition callee {X} (c : call X) : string :=
  match c with
  | get_online_pve_host _ => "get_online_pve_host"
  | get_cloud_env _ => "get_cloud_env"
  | get_ssh_master_kubeconfig _ _ => "get_ssh_master_kubeconfig"
  | grpc_aio_server _ _ => "grpc.aio.server"
  | add_CloudServiceServicer_to_server _ _ =>
      "add_CloudServiceServicer_to_server"
  | add_insecure_port _ _ => "add_insecure_port"
  | add_secure_port _ _ _ => "add_secure_port"
  | start _ => "start"
  | wait_for_termination _ _ => "wait_for_termination"
  | time_remaining _ => "time_remaining"
  | cancelled _ => "cancelled"
  | abort _ _ => "abort"
  | print _ => "print"
  end.

(** The three functions imported from [pve_cloud]. *)
Definition collaborator {X} (c : call X) : bool :=
  match c with
  | get_online_pve_host _ | get_cloud_env _
  | get_ssh_master_kubeconfig _ _ => true
  | _ => false
  end.

(** ** Accesses to the memory of the process *)

Inductive memop : Type -> Type :=
| new_object : memop ref
| getattr (o : ref) (name : string) : memop (option PyObj)
| setattr (o : ref) (name : string) (v : PyObj) : memop unit
| load_global (name : string) : memop (option PyObj)
| store_global (name : string) (v : PyObj) : memop unit.

(** ** Programs *)

Inductive prog (A : Type) : Type :=
| Ret (a : A)
| Call {X : Type} (c : call X) (k : X -> prog A)
| Mem {X : Type} (m : memop X) (k : X -> prog A).

Arguments Ret {A} a.
Arguments Call {A X} c k.
Arguments Mem {A X} m k.

Fixpoint bind {A B : Type} (p : prog A) (f : A -> prog B) : prog B :=
  match p with
  | Ret a => f a
  | Call c k => Call c (fun x => bind (k x) f)
  | Mem m k => Mem m (fun x => bind (k x) f)
  end.

Definition do_call {X} (c : call X) : prog X := Call c Ret.
Definition do_mem {X} (m : memop X) : prog X := Mem m Ret.

End Program.

Arguments Returned {Ext A} a.
Arguments Raised {Ext A} e.
Arguments Blocked {Ext A}.
Arguments Ret {Ext A} a.
Arguments Call {Ext A X} c k.
Arguments Mem {Ext A X} m k.

#[global] Instance prog_ret `{Externals} : MRet prog := fun A a => Ret a.
#[global] Instance prog_bind `{Externals} : MBind prog :=
  fun A B f p => bind p f.

Section Interpreter.
Context `{Ext : Externals}.

(** ** The machine *)

(** The state a program runs in: the objects of the heap with their
    attributes, the globals of the module, and the world outside. *)
Record machine := Machine {
  heap : gmap ref (gmap string PyObj);
  globals : gmap string PyObj;
  ext : World;
}.

Definition set_ext (w : World) (s : machine) : machine :=
  {| heap := heap s; globals := globals s; ext := w |}.

(** What the imported functions and the runtime do is not in the source:
    an environment answers every call, given the world, with an outcome
    and the world after the call. *)
Definition environment : Type :=
  forall X : Type, call X -> World -> outcome X * World.

Definition mem_step {X} (m : memop X) (s : machine) : X * machine :=
  match m in memop X return X * machine with
  | new_object =>
      let o := fresh (dom (heap s)) in
      (o, {| heap := <[o := ∅]> (heap s); globals := globals s;
             ext := ext s |})
  | getattr o name => ((heap s !! o) ≫= (fun d => d !! name), s)
  | setattr o name v =>
      (tt, {| heap := alter (fun d => <[name := v]> d) o (heap s);
              globals := globals s; ext := ext s |})
  | load_global name => (globals s !! name, s)
  | store_global name v =>
      (tt, {| heap := heap s; globals := <[name := v]> (globals s);
              ext := ext s |})
  end.

(** One line of the log of a run. *)
Inductive entry : Type :=
| Called {X : Type} (c : call X) (o : outcome X)
| Accessed {X : Type} (m : memop X) (x : X).

Record result (A : Type) := Result {
  res : outcome A;
  final : machine;
  trace : list entry;
}.

Arguments Result {A} res final trace.
Arguments res {A} r.
Arguments final {A} r.
Arguments trace {A} r.

Definition logged {A} (e : entry) (r : result A) : result A :=
  {| res := res r; final := final r; trace := e :: trace r |}.

(** An exception or a call that never returns ends the run: nothing in the
    source catches an exception, and nothing bounds a wait. *)
Fixpoint run {A} (env : environment) (p : prog A) (s : machine) : result A :=
  match p with
  | Ret a => {| res := Returned a; final := s; trace := [] |}
  | Call c k =>
      match env _ c (ext s) with
      | (Returned x, w) =>
          logged (Called c (Returned x)) (run env (k x) (set_ext w s))
      | (Raised e, w) =>
          {| res := Raised e; final := set_ext w s;
             trace := [Called c (Raised e)] |}
      | (Blocked, w) =>
          {| res := Blocked; final := set_ext w s;
             trace := [Called c Blocked] |}
      end
  | Mem m k =>
      let '(x, s') := mem_step m s in
      logged (Accessed m x) (run env (k x) s')
  end.

(** Reading the log. *)
Definition entry_callee (e : entry) : option string :=
  match e with
  | Called c _ => Some (callee c)
  | Accessed _ _ => None
  end.

Definition entry_raised (e : entry) : option Exn :=
  match e with
  | Called _ (Raised x) => Some x
  | _ => None
  end.

Definition entry_collaborator (e : entry) : bool :=
  match e with
  | Called c _ => collaborator c
  | Accessed _ _ => false
  end.

Definition callees (tr : list entry) : list string :=
  omap entry_callee tr.

Definition invoked (name : string) (tr : list entry) : bool :=
  bool_decide (name ∈ callees tr).

(** ** The module *)

(** [cloud_pb2.GetKubeconfigResponse(config=...)] *)
Definition GetKubeconfigResponse (config : string) : message :=
  {[ "config" := config ]}.

(** [CloudServiceServicer.GetMasterKubeconfig] *)
Definition GetMasterKubeconfig (self : ref) (request : message)
    (context : ServicerContext) : prog message :=
  let target_pve := msg_get request "target_pve" in
  let stack_name := msg_get request "stack_name" in
  online_pve_host ← do_call (get_online_pve_host target_pve);
  '(cluster_vars, patroni_pass, bind_internal_key) ←
    do_call (get_cloud_env online_pve_host);
  config ← do_call (get_ssh_master_kubeconfig cluster_vars stack_name);
  mret (GetKubeconfigResponse config).

(** The methods the class [CloudServiceServicer] defines. *)
Definition CloudServiceServicer_methods
  : list (string * (ref -> message -> ServicerContext -> prog message)) :=
  [("GetMasterKubeconfig", GetMasterKubeconfig)].

(** [CloudServiceServicer()]: the class has no [__init__]. *)
Definition CloudServiceServicer : prog ref := do_mem new_object.

Definition listen_addr : string := "[::]:50051".

(** [serve]; both [await]s are calls whose outcome the runtime decides.
    [grpc.aio.server()] is called without arguments and
    [wait_for_termination()] without a timeout. *)
Definition serve : prog unit :=
  server ← do_call (grpc_aio_server [] []);
  servicer ← CloudServiceServicer;
  _ ← do_call (add_CloudServiceServicer_to_server servicer server);
  _ ← do_call (add_insecure_port server listen_addr);
  _ ← do_call (start server);
  _ ← do_call (print ("gRPC AsyncIO server running on " ++ listen_addr));
  _ ← do_call (wait_for_termination server None);
  mret tt.

(** [asyncio.run(coro)] drives the coroutine to its end and hands back what
    it returns. *)
Definition asyncio_run {A} (coro : prog A) : prog A := coro.

Definition main : prog unit := asyncio_run serve.

End Interpreter.

Arguments Result {Ext A} res final trace.
Arguments res {Ext A} r.
Arguments final {Ext A} r.
Arguments trace {Ext A} r.

(** ** The protocol declaration *)

Inductive field_type : Type := TString | TBytes | TBool | TInt64.

Record rpc_method := RpcMethod {
  rpc_name : string;
  request_fields : list (string * field_type);
  response_fields : list (string * field_type);
}.

(** Modelled from the spec: the generated modules [cloud_pb2] and
    [cloud_pb2_grpc], which hold the declaration of the service and of its
    two messages, are not among the sources.  "Wire protocol: one RPC method
    accepting {target_pve: string, stack_name: string} and returning
    {config: string}."  The name of the method is the one the servicer class
    overrides. *)
Definition CloudService : list rpc_method :=
  [ {| rpc_name := "GetMasterKubeconfig";
       request_fields := [("target_pve", TString); ("stack_name", TString)];
       response_fields := [("config", TString)] |} ].

Definition field_names (fs : list (string * field_type)) : list string :=
  map fst fs.

(** ** Reading the log of [serve] *)

Section Log.
Context `{Ext : Externals}.

(** The address an entry binds, and whether the binding carries
    credentials. *)
Definition entry_port (e : entry) : option (string * bool) :=
  match e with
  | Called (add_insecure_port _ address) _ => Some (address, false)
  | Called (add_secure_port _ address _) _ => Some (address, true)
  | _ => None
  end.

Definition ports (tr : list entry) : list (string * bool) :=
  omap entry_port tr.

(** The number of interceptors an entry installs on a new server. *)
Definition entry_interceptors (e : entry) : nat :=
  match e with
  | Called (grpc_aio_server interceptors _) _ => length interceptors
  | _ => 0
  end.

(** An entry that sets a channel option or a timeout, or that asks the
    context of a request about its deadline or its cancellation. *)
Definition configures_timeout (e : entry) : bool :=
  match e with
  | Called (grpc_aio_server _ (_ :: _)) _ => true
  | Called (wait_for_termination _ (Some _)) _ => true
  | Called (time_remaining _) _ => true
  | Called (cancelled _) _ => true
  | Called (abort _ _) _ => true
  | _ => false
  end.

Definition entry_access (e : entry) : bool :=
  match e with
  | Accessed _ _ => true
  | Called _ _ => false
  end.


(** A call that returned; an access to the memory always does. *)
Definition entry_returned (e : entry) : bool :=
  match e with
  | Called _ (Returned _) => true
  | Called _ _ => false
  | Accessed _ _ => true
  end.

(** The stack name an entry asks a kubeconfig for. *)
Definition entry_stack_name (e : entry) : option string :=
  match e with
  | Called (get_ssh_master_kubeconfig _ stack_name) _ => Some stack_name
  | _ => None
  end.

(** The servicer an entry registers. *)
Definition entry_servicer (e : entry) : option ref :=
  match e with
  | Called (add_CloudServiceServicer_to_server servicer _) _ => Some servicer
  | _ => None
  end.

(** The server an entry acts on. *)
Definition entry_server (e : entry) : option Server :=
  match e with
  | Called (add_CloudServiceServicer_to_server _ server) _
  | Called (add_insecure_port server _) _
  | Called (add_secure_port server _ _) _
  | Called (start server) _
  | Called (wait_for_termination server _) _ => Some server
  | _ => None
  end.

(** The line an entry prints. *)
Definition entry_printed (e : entry) : option string :=
  match e with
  | Called (print line) _ => Some line
  | _ => None
  end.

(** ** Comparing two environments *)

(** Two answers of [get_cloud_env] that differ at most in the two secrets. *)
Definition same_cluster_vars
    (o1 o2 : outcome (ClusterVars * PatroniPass * BindInternalKey)) : Prop :=
  match o1, o2 with
  | Returned (cv1, _, _), Returned (cv2, _, _) => cv1 = cv2
  | Raised e1, Raised e2 => e1 = e2
  | Blocked, Blocked => True
  | _, _ => False
  end.

(** The three imported functions behave alike in two environments whose
    worlds are related by [R]: they give equal answers and leave related
    worlds. *)
Definition same_behavior (R : World -> World -> Prop)
    (env1 env2 : environment) : Prop :=
  forall (X : Type) (c : call X) (w1 w2 : World),
    collaborator c = true -> R w1 w2 ->
    fst (env1 X c w1) = fst (env2 X c w2) /\
    R (snd (env1 X c w1)) (snd (env2 X c w2)).

(** The same, except that the secrets [get_cloud_env] returns are free. *)
Definition same_up_to_secrets (env1 env2 : environment) : Prop :=
  (forall t w, env1 _ (get_online_pve_host t) w
               = env2 _ (get_online_pve_host t) w) /\
  (forall h w,
      same_cluster_vars (fst (env1 _ (get_cloud_env h) w))
                        (fst (env2 _ (get_cloud_env h) w)) /\
      snd (env1 _ (get_cloud_env h) w) = snd (env2 _ (get_cloud_env h) w)) /\
  (forall cv st w, env1 _ (get_ssh_master_kubeconfig cv st) w
                   = env2 _ (get_ssh_master_kubeconfig cv st) w).

End Log.

(** ** A concrete outside, to run the module on *)

Module Demo.

Definition outside : Externals :=
  {| Host := string; ClusterVars := string; PatroniPass := string;
     BindInternalKey := string; Exn := string; PyObj := Z;
     ServicerContext := unit; Server := nat; Interceptor := unit;
     ServerCredentials := unit; World := nat |}.

#[local] Existing Instance outside.

(** The world counts the calls made so far.  The function named [failing]
    raises, the secrets are [secret] and [key], and a server that is never
    stopped makes [wait_for_termination] wait for ever. *)
Definition env (failing : string) (secret key : string) (stopped : bool)
  : environment :=
  fun X c w =>
    if String.eqb (callee c) failing
    then (Raised ("error in " ++ failing), S w)
    else
      match c in call X return outcome X * nat with
      | get_online_pve_host target_pve =>
          (Returned ("node1." ++ target_pve), S w)
      | get_cloud_env online_pve_host =>
          (Returned ("vars of " ++ online_pve_host, secret, key), S w)
      | get_ssh_master_kubeconfig cluster_vars stack_name =>
          (Returned ("kubeconfig of " ++ stack_name ++ " from "
                     ++ cluster_vars), S w)
      | grpc_aio_server _ _ => (Returned 7, S w)
      | add_CloudServiceServicer_to_server _ _ => (Returned tt, S w)
      | add_insecure_port _ _ => (Returned 50051%Z, S w)
      | add_secure_port _ _ _ => (Returned 50051%Z, S w)
      | start _ => (Returned tt, S w)
      | wait_for_termination _ _ =>
          if stopped then (Returned false, S w) else (Blocked, S w)
      | time_remaining _ => (Returned None, S w)
      | cancelled _ => (Returned false, S w)
      | abort _ _ => (Raised "aborted", S w)
      | print _ => (Returned tt, S w)
      end.

Definition request : message :=
  {[ "target_pve" := "pve.example"; "stack_name" := "prod" ]}.

Definition boot : machine :=
  {| heap := ∅; globals := ∅; ext := 0 |}.

(** The same request with a field the protocol does not declare. *)
Definition request' : message := <[ "comment" := "urgent" ]> request.

(** A request that sets neither field of the protocol. *)
Definition blank : message := {[ "comment" := "urgent" ]}.

(** A process that has been at work for a while. *)
Definition busy : machine :=
  {| heap := {[ 1%positive := {[ "calls" := 12%Z ]} ]};
     globals := {[ "verbose" := 1%Z ]}; ext := 40 |}.

End Demo.

(** ** The runs of the handler *)

Section Runs.
Context `{Ext : Externals}.

(** What a call that did not return leaves its caller with. *)
Definition halt {X A : Type} (o : outcome X) : outcome A :=
  match o with
  | Raised e => Raised e
  | _ => Blocked
  end.

Definition returned {X : Type} (o : outcome X) : bool :=
  match o with
  | Returned _ => true
  | _ => false
  end.

(** The four ways a run of [GetMasterKubeconfig] can go: it stops at the
    first, the second or the third call, or it returns a response. *)
Inductive handler_run (env : environment) (s : machine) (request : message)
  : result message -> Prop :=
| stops_at_host o w :
    env _ (get_online_pve_host (msg_get request "target_pve")) (ext s)
      = (o, w) ->
    returned o = false ->
    handler_run env s request
      {| res := halt o; final := set_ext w s;
         trace := [Called (get_online_pve_host
                             (msg_get request "target_pve")) o] |}
| stops_at_env h w1 o w2 :
    env _ (get_online_pve_host (msg_get request "target_pve")) (ext s)
      = (Returned h, w1) ->
    env _ (get_cloud_env h) w1 = (o, w2) ->
    returned o = false ->
    handler_run env s request
      {| res := halt o; final := set_ext w2 s;
         trace := [Called (get_online_pve_host
                             (msg_get request "target_pve")) (Returned h);
                   Called (get_cloud_env h) o] |}
| stops_at_kubeconfig h w1 cv pp bk w2 o w3 :
    env _ (get_online_pve_host (msg_get request "target_pve")) (ext s)
      = (Returned h, w1) ->
    env _ (get_cloud_env h) w1 = (Returned (cv, pp, bk), w2) ->
    env _ (get_ssh_master_kubeconfig cv (msg_get request "stack_name")) w2
      = (o, w3) ->
    returned o = false ->
    handler_run env s request
      {| res := halt o; final := set_ext w3 s;
         trace := [Called (get_online_pve_host
                             (msg_get request "target_pve")) (Returned h);
                   Called (get_cloud_env h) (Returned (cv, pp, bk));
                   Called (get_ssh_master_kubeconfig cv
                             (msg_get request "stack_name")) o] |}
| responds h w1 cv pp bk w2 config w3 :
    env _ (get_online_pve_host (msg_get request "target_pve")) (ext s)
      = (Returned h, w1) ->
    env _ (get_cloud_env h) w1 = (Returned (cv, pp, bk), w2) ->
    env _ (get_ssh_master_kubeconfig cv (msg_get request "stack_name")) w2
      = (Returned config, w3) ->
    handler_run env s request
      {| res := Returned (GetKubeconfigResponse config);
         final := set_ext w3 s;
         trace := [Called (get_online_pve_host
                             (msg_get request "target_pve")) (Returned h);
                   Called (get_cloud_env h) (Returned (cv, pp, bk));
                   Called (get_ssh_master_kubeconfig cv
                             (msg_get request "stack_name"))
                          (Returned config)] |}.

End Runs.

(** * Properties *)

Section Properties.
Context `{Ext : Externals}.

(** Every run of the handler is one of the four of [handler_run]. *)
Lemma run_GetMasterKubeconfig (env : environment) (s : machine) (self : ref)
    (request : message) (context : ServicerContext) :
  handler_run env s request
    (run env (GetMasterKubeconfig self request context) s).
Proof.
  unfold GetMasterKubeconfig. cbn.
  destruct (env _ (get_online_pve_host (msg_get request "target_pve"))
              (ext s)) as [o1 w1] eqn:E1.
  destruct o1 as [h|x|];
    [ | now apply (stops_at_host env s request (Raised x) w1)
      | now apply (stops_at_host env s request Blocked w1) ].
  cbn.
  destruct (env _ (get_cloud_env h) w1) as [o2 w2] eqn:E2.
  destruct o2 as [[[cv pp] bk]|x|];
    [ | now apply (stops_at_env env s request h w1 (Raised x) w2)
      | now apply (stops_at_env env s request h w1 Blocked w2) ].
  cbn.
  destruct (env _ (get_ssh_master_kubeconfig cv
                     (msg_get request "stack_name")) w2) as [o3 w3] eqn:E3.
  destruct o3 as [config|x|]; cbn.
  - now apply (responds env s request h w1 cv pp bk w2 config w3).
  - now apply (stops_at_kubeconfig env s request h w1 cv pp bk w2
                 (Raised x) w3).
  - now apply (stops_at_kubeconfig env s request h w1 cv pp bk w2
                 Blocked w3).
Qed.

(** C1. When the three imported functions return, the handler has called
    [get_online_pve_host] on the target of the request, then
    [get_cloud_env] on the host found, then [get_ssh_master_kubeconfig] on
    the cluster variables and the stack name of the request, in that order
    and nothing else, and it returns the response whose [config] field is
    the very string the last call returned. *)
Theorem GetMasterKubeconfig_sequence (env : environment) (s : machine)
    (self : ref) (request : message) (context : ServicerContext)
    (h : Host) (w1 : World) (cv : ClusterVars) (pp : PatroniPass)
    (bk : BindInternalKey) (w2 : World) (config : string) (w3 : World) :
  env _ (get_online_pve_host (msg_get request "target_pve")) (ext s)
    = (Returned h, w1) ->
  env _ (get_cloud_env h) w1 = (Returned (cv, pp, bk), w2) ->
  env _ (get_ssh_master_kubeconfig cv (msg_get request "stack_name")) w2
    = (Returned config, w3) ->
  trace (run env (GetMasterKubeconfig self request context) s)
    = [Called (get_online_pve_host (msg_get request "target_pve"))
         (Returned h);
       Called (get_cloud_env h) (Returned (cv, pp, bk));
       Called (get_ssh_master_kubeconfig cv (msg_get request "stack_name"))
         (Returned config)]
  /\ (exists response : message,
        res (run env (GetMasterKubeconfig self request context) s)
          = Returned response
        /\ response !! "config" = Some config
        /\ msg_get response "config" = config
        /\ dom response = {[ "config" ]}).
Proof.
  intros E1 E2 E3.
  unfold GetMasterKubeconfig. cbn. rewrite E1. cbn. rewrite E2. cbn.
  rewrite E3. cbn. split; [reflexivity|].
  exists (GetKubeconfigResponse config). unfold GetKubeconfigResponse, msg_get.
  rewrite lookup_singleton_eq, dom_singleton_L. auto.
Qed.

(** Case analysis on a run of the handler. *)
Ltac handler_cases :=
  match goal with
  | |- context [run ?env (GetMasterKubeconfig ?self ?request ?ctx) ?s] =>
      generalize (run_GetMasterKubeconfig env s self request ctx);
      generalize (run env (GetMasterKubeconfig self request ctx) s)
  end;
  let r := fresh "r" in
  let Hr := fresh "Hr" in
  intros r Hr; destruct Hr as
    [ o w E1 Ho | h w1 o w2 E1 E2 Ho | h w1 cv pp bk w2 o w3 E1 E2 E3 Ho
    | h w1 cv pp bk w2 config w3 E1 E2 E3 ];
  try (destruct o as [?|x|]; [discriminate Ho| |]); cbn.

Ltac split_elem H :=
  repeat (apply elem_of_cons in H; destruct H as [H|H]);
  [ subst .. | apply elem_of_nil in H; destruct H ].

(** C2. The handler raises an exception exactly when one of the calls it
    made raised it, and then it raises that same exception and returns no
    response.  It makes no call other than to the three imported functions,
    and calls none of them twice: there is no retry, no call that would
    translate the error and none that would bound the time. *)
Theorem GetMasterKubeconfig_raises_iff (env : environment) (s : machine)
    (self : ref) (request : message) (context : ServicerContext) :
  (forall x : Exn,
      res (run env (GetMasterKubeconfig self request context) s) = Raised x
      <-> exists e : entry,
            e ∈ trace (run env (GetMasterKubeconfig self request context) s)
            /\ entry_raised e = Some x)
  /\ (forall (x : Exn) (response : message),
        res (run env (GetMasterKubeconfig self request context) s) = Raised x ->
        res (run env (GetMasterKubeconfig self request context) s)
          <> Returned response)
  /\ (forall e : entry,
        e ∈ trace (run env (GetMasterKubeconfig self request context) s) ->
        entry_collaborator e = true)
  /\ NoDup (callees
              (trace (run env (GetMasterKubeconfig self request context) s))).
Proof.
  handler_cases;
    (split; [intros y; split; [intros Hy | intros (e & He & Hy)] |
     split; [intros y response Hy; congruence |
     split; [intros e He; split_elem He; reflexivity |
             apply (bool_decide_unpack _); vm_compute; exact I]]]);
    try (split_elem He; cbn in Hy; congruence);
    try discriminate Hy;
    injection Hy as ->;
    first
      [ solve [eexists; split; [apply list_elem_of_here | reflexivity]]
      | solve [eexists; split;
               [apply list_elem_of_further, list_elem_of_here | reflexivity]]
      | solve [eexists; split;
               [do 2 apply list_elem_of_further; apply list_elem_of_here
               | reflexivity]] ].
Qed.

(** Case analysis on the answer of the environment to the next call. *)
Ltac env_step :=
  match goal with
  | |- context [?env ?X ?c ?w] =>
      match type of env with environment => idtac end;
      destruct (env X c w) as [[?|?|] ?] eqn:?; cbn;
      repeat match goal with
             | p : (_ * _)%type |- _ => destruct p
             end; cbn
  end.

(** Whatever the imported functions do, the calls of a run are an initial
    part of the sequence of calls of the source. *)
Lemma GetMasterKubeconfig_call_order (env : environment) (s : machine)
    (self : ref) (request : message) (context : ServicerContext) :
  callees (trace (run env (GetMasterKubeconfig self request context) s))
    `prefix_of`
  ["get_online_pve_host"; "get_cloud_env"; "get_ssh_master_kubeconfig"].
Proof.
  handler_cases; eexists; reflexivity.
Qed.

(** C10. In a run of the handler the call that raised is the last one
    made.  So when [get_online_pve_host] raises, neither [get_cloud_env]
    nor [get_ssh_master_kubeconfig] is invoked, and when [get_cloud_env]
    raises, [get_ssh_master_kubeconfig] is not invoked. *)
Theorem GetMasterKubeconfig_short_circuit (env : environment) (s : machine)
    (self : ref) (request : message) (context : ServicerContext)
    (e : entry) (x : Exn) :
  e ∈ trace (run env (GetMasterKubeconfig self request context) s) ->
  entry_raised e = Some x ->
  last (trace (run env (GetMasterKubeconfig self request context) s)) = Some e
  /\ (entry_callee e = Some "get_online_pve_host" ->
      invoked "get_cloud_env"
        (trace (run env (GetMasterKubeconfig self request context) s)) = false
      /\ invoked "get_ssh_master_kubeconfig"
           (trace (run env (GetMasterKubeconfig self request context) s))
         = false)
  /\ (entry_callee e = Some "get_cloud_env" ->
      invoked "get_ssh_master_kubeconfig"
        (trace (run env (GetMasterKubeconfig self request context) s))
      = false).
Proof.
  handler_cases; intros He Hx; split_elem He; cbn in Hx;
    try discriminate Hx;
    (split; [reflexivity|]); split; intros Hc;
    solve [discriminate Hc | split; reflexivity | reflexivity].
Qed.

(** C6. A run of the handler leaves the heap, and with it the servicer
    object, and the globals of the module as they were; it makes no access
    to either; and its response is the same whatever the heap, the globals
    and the servicer it is called on. *)
Theorem GetMasterKubeconfig_stateless (env : environment) (s : machine)
    (self : ref) (request : message) (context : ServicerContext) :
  heap (final (run env (GetMasterKubeconfig self request context) s)) = heap s
  /\ globals (final (run env (GetMasterKubeconfig self request context) s))
     = globals s
  /\ (forall e : entry,
        e ∈ trace (run env (GetMasterKubeconfig self request context) s) ->
        entry_access e = false)
  /\ (forall (self' : ref) (objects : gmap ref (gmap string PyObj))
             (variables : gmap string PyObj),
        res (run env (GetMasterKubeconfig self' request context)
               {| heap := objects; globals := variables; ext := ext s |})
        = res (run env (GetMasterKubeconfig self request context) s)).
Proof.
  repeat split.
  - handler_cases; reflexivity.
  - handler_cases; reflexivity.
  - handler_cases; intros e He; split_elem He; reflexivity.
  - intros self' objects variables. unfold GetMasterKubeconfig. cbn.
    repeat env_step; reflexivity.
Qed.

(** C7. Two calls of the handler whose requests carry the same target and
    the same stack name, made in environments in which the three imported
    functions behave alike, give the same outcome and the same log of
    calls, whatever the servicer, the context, the heap and the globals of
    each call, which is all that other calls in flight could have changed
    inside the process. *)
Theorem GetMasterKubeconfig_deterministic (R : World -> World -> Prop)
    (env1 env2 : environment) (s1 s2 : machine) (self1 self2 : ref)
    (request1 request2 : message) (context1 context2 : ServicerContext) :
  msg_get request1 "target_pve" = msg_get request2 "target_pve" ->
  msg_get request1 "stack_name" = msg_get request2 "stack_name" ->
  same_behavior R env1 env2 ->
  R (ext s1) (ext s2) ->
  res (run env1 (GetMasterKubeconfig self1 request1 context1) s1)
  = res (run env2 (GetMasterKubeconfig self2 request2 context2) s2)
  /\ trace (run env1 (GetMasterKubeconfig self1 request1 context1) s1)
     = trace (run env2 (GetMasterKubeconfig self2 request2 context2) s2).
Proof.
  intros Ht Hn Hsame HR. unfold GetMasterKubeconfig. cbn.
  rewrite <- Ht, <- Hn.
  destruct (Hsame _ (get_online_pve_host (msg_get request1 "target_pve"))
              _ _ eq_refl HR) as [Ho1 HR1].
  destruct (env1 _ (get_online_pve_host (msg_get request1 "target_pve"))
              (ext s1)) as [o1 w1].
  destruct (env2 _ (get_online_pve_host (msg_get request1 "target_pve"))
              (ext s2)) as [o1' w1'].
  cbn in Ho1, HR1. subst o1'. destruct o1 as [h|x|]; cbn; [|done|done].
  destruct (Hsame _ (get_cloud_env h) _ _ eq_refl HR1) as [Ho2 HR2].
  destruct (env1 _ (get_cloud_env h) w1) as [o2 w2].
  destruct (env2 _ (get_cloud_env h) w1') as [o2' w2'].
  cbn in Ho2, HR2. subst o2'.
  destruct o2 as [[[cv pp] bk]|x|]; cbn; [|done|done].
  destruct (Hsame _ (get_ssh_master_kubeconfig cv
                       (msg_get request1 "stack_name"))
              _ _ eq_refl HR2) as [Ho3 _].
  destruct (env1 _ (get_ssh_master_kubeconfig cv
                      (msg_get request1 "stack_name")) w2) as [o3 w3].
  destruct (env2 _ (get_ssh_master_kubeconfig cv
                      (msg_get request1 "stack_name")) w2') as [o3' w3'].
  cbn in Ho3. subst o3'. destruct o3 as [config|x|]; cbn; done.
Qed.

(** C9. Of the three values [get_cloud_env] returns only the cluster
    variables reach the response: two runs in environments that differ at
    most in the two secrets returned by [get_cloud_env] end with the same
    outcome, in the same state. *)
Theorem GetMasterKubeconfig_ignores_secrets (env1 env2 : environment)
    (s : machine) (self : ref) (request : message)
    (context : ServicerContext) :
  same_up_to_secrets env1 env2 ->
  res (run env1 (GetMasterKubeconfig self request context) s)
  = res (run env2 (GetMasterKubeconfig self request context) s)
  /\ final (run env1 (GetMasterKubeconfig self request context) s)
     = final (run env2 (GetMasterKubeconfig self request context) s).
Proof.
  intros (Hhost & Henv & Hkube). unfold GetMasterKubeconfig. cbn.
  rewrite Hhost.
  destruct (env2 _ (get_online_pve_host (msg_get request "target_pve"))
              (ext s)) as [[h|x|] w1]; cbn; [|done|done].
  destruct (Henv h w1) as [Hcv Hw].
  destruct (env1 _ (get_cloud_env h) w1) as [o2 w2].
  destruct (env2 _ (get_cloud_env h) w1) as [o2' w2'].
  cbn in Hcv, Hw. subst w2'.
  destruct o2 as [[[cv pp] bk]|x|], o2' as [[[cv' pp'] bk']|x'|];
    cbn in Hcv |- *; try done; [|by subst].
  subst cv'. rewrite Hkube.
  destruct (env2 _ (get_ssh_master_kubeconfig cv
                      (msg_get request "stack_name")) w2)
    as [[config|x|] w3]; cbn; done.
Qed.

(** C3. The service declares one method, the one the servicer class
    defines; its request has the two string fields [target_pve] and
    [stack_name] and its response the one string field [config].  The
    handler depends on the request through the declared fields only, and
    the response it returns has the declared field set and no other. *)
Theorem CloudService_wire_protocol :
  length CloudService = 1
  /\ map rpc_name CloudService = map fst CloudServiceServicer_methods
  /\ (forall m : rpc_method,
        m ∈ CloudService ->
        request_fields m = [("target_pve", TString); ("stack_name", TString)]
        /\ response_fields m = [("config", TString)]
        /\ (forall (self : ref) (request1 request2 : message)
                   (context : ServicerContext),
              (forall f : string,
                  f ∈ field_names (request_fields m) ->
                  msg_get request1 f = msg_get request2 f) ->
              GetMasterKubeconfig self request1 context
              = GetMasterKubeconfig self request2 context)
        /\ (forall (env : environment) (s : machine) (self : ref)
                   (request response : message) (context : ServicerContext),
              res (run env (GetMasterKubeconfig self request context) s)
                = Returned response ->
              dom response = list_to_set (field_names (response_fields m)))).
Proof.
  split; [reflexivity|]. split; [reflexivity|].
  intros m Hm. apply list_elem_of_singleton in Hm. subst m.
  cbn [request_fields response_fields].
  split; [reflexivity|]. split; [reflexivity|]. split.
  - intros self request1 request2 context Hf. unfold GetMasterKubeconfig.
    rewrite (Hf "target_pve"), (Hf "stack_name"); [reflexivity| |];
      set_solver.
  - intros env s self request response context.
    handler_cases; intros Hres; try discriminate Hres.
    injection Hres as <-. unfold GetKubeconfigResponse.
    rewrite dom_singleton_L. set_solver.
Qed.

(** ** The server *)

(** C4. [serve] binds one port, and only when it gets that far: the
    address [[::]:50051], which is the wildcard host [[::]] and the port
    50051, bound without credentials.  It binds no port with credentials
    and installs no interceptor on the server, and a server that is started
    has its port bound. *)
Theorem serve_listens_insecurely (env : environment) (s : machine) :
  (ports (trace (run env serve s)) = []
   \/ ports (trace (run env serve s)) = [(listen_addr, false)])
  /\ (invoked "start" (trace (run env serve s)) = true ->
      ports (trace (run env serve s)) = [(listen_addr, false)])
  /\ invoked "add_secure_port" (trace (run env serve s)) = false
  /\ (forall e : entry,
        e ∈ trace (run env serve s) -> entry_interceptors e = 0)
  /\ listen_addr
     = "[::]" ++ ":" ++ NilZero.string_of_uint (N.to_uint 50051).
Proof.
  unfold serve, CloudServiceServicer. cbn.
  repeat env_step;
    (split; [auto|]); (split; [first [reflexivity | discriminate]|]);
    (split; [reflexivity|]);
    (split; [intros en Hen; split_elem Hen; reflexivity | reflexivity]).
Qed.

(** C5. [main] is the one call [asyncio.run(serve())].  When it returns,
    the last thing it did was to wait for the termination of the server it
    had started, and that wait came back.  With a runtime in which the wait
    never comes back, [main] does not return; and once the wait is reached
    the set-up has run in full, in the order of the source, and [main] is
    blocked there. *)
Theorem main_runs_until_terminated (env : environment) (s : machine) :
  main = asyncio_run serve
  /\ (forall a : unit,
        res (run env main s) = Returned a ->
        exists (server : Server) (b : bool) (before : list entry),
          trace (run env main s)
            = (before ++ [Called (wait_for_termination server None)
                            (Returned b)])%list
          /\ Called (start server) (Returned tt) ∈ before)
  /\ ((forall (server : Server) (timeout : option Z) (w : World),
          fst (env _ (wait_for_termination server timeout) w) = Blocked) ->
      (forall a : unit, res (run env main s) <> Returned a)
      /\ (invoked "wait_for_termination" (trace (run env main s)) = true ->
          res (run env main s) = Blocked
          /\ callees (trace (run env main s))
             = ["grpc.aio.server"; "add_CloudServiceServicer_to_server";
                "add_insecure_port"; "start"; "print";
                "wait_for_termination"])).
Proof.
  split; [reflexivity|].
  unfold main, asyncio_run, serve, CloudServiceServicer. cbn.
  repeat env_step;
    (split; [intros ret Hret; try discriminate Hret
            |intros Hwait; split;
             [intros ret Hret; try discriminate Hret
             |intros Hin; try discriminate Hin; try (split; reflexivity)]]).
  all: try match goal with
           | Hw : _ _ (wait_for_termination ?srv ?t) ?w = _ |- _ =>
               specialize (Hwait srv t w); rewrite Hw in Hwait;
               discriminate Hwait
           end.
  repeat match goal with u : unit |- _ => destruct u end.
  eexists _, _, [_; _; _; _; _; _]. split; [reflexivity|].
  do 4 apply list_elem_of_further. apply list_elem_of_here.
Qed.

(** C8. The handler is the same program whatever the context it is given,
    so the context has no effect on the response; no call of a run of the
    handler asks the context about a deadline or a cancellation; and no call
    of a run of [serve] passes a channel option or a timeout. *)
Theorem no_deadline_no_timeout (env : environment) (s : machine)
    (self : ref) (request : message) (context : ServicerContext) :
  (forall context' : ServicerContext,
      GetMasterKubeconfig self request context'
      = GetMasterKubeconfig self request context
      /\ res (run env (GetMasterKubeconfig self request context') s)
         = res (run env (GetMasterKubeconfig self request context) s))
  /\ (forall e : entry,
        e ∈ trace (run env (GetMasterKubeconfig self request context) s) ->
        configures_timeout e = false)
  /\ (forall e : entry,
        e ∈ trace (run env serve s) -> configures_timeout e = false).
Proof.
  split; [intros context'; split; reflexivity|]. split.
  - handler_cases; intros e He; split_elem He; reflexivity.
  - unfold serve, CloudServiceServicer. cbn.
    repeat env_step; intros en Hen; split_elem Hen; reflexivity.
Qed.

(** ** Further properties of the handler *)

(** X1. A response comes from nowhere but [get_ssh_master_kubeconfig]: when
    the handler returns a response, the three imported functions were
    called and returned, each on what the one before gave, the response
    holds the string the last one returned, and the world is the one that
    call left. *)
Theorem GetMasterKubeconfig_response_provenance (env : environment)
    (s : machine) (self : ref) (request : message)
    (context : ServicerContext) (response : message) :
  res (run env (GetMasterKubeconfig self request context) s)
    = Returned response ->
  exists (h : Host) (w1 : World) (cv : ClusterVars) (pp : PatroniPass)
         (bk : BindInternalKey) (w2 : World) (config : string) (w3 : World),
    env _ (get_online_pve_host (msg_get request "target_pve")) (ext s)
      = (Returned h, w1)
    /\ env _ (get_cloud_env h) w1 = (Returned (cv, pp, bk), w2)
    /\ env _ (get_ssh_master_kubeconfig cv (msg_get request "stack_name")) w2
       = (Returned config, w3)
    /\ response = GetKubeconfigResponse config
    /\ ext (final (run env (GetMasterKubeconfig self request context) s))
       = w3
    /\ length (trace (run env (GetMasterKubeconfig self request context) s))
       = 3.
Proof.
  handler_cases; intros Hres; try discriminate Hres.
  injection Hres as <-.
  exists h, w1, cv, pp, bk, w2, config, w3. auto 10.
Qed.


(** X3. The handler does not look at what the request holds before it
    calls out.  A request that sets neither field is not turned down: the
    first thing a run does is to call [get_online_pve_host] on the empty
    string, and if the run gets to [get_ssh_master_kubeconfig] the stack
    name it passes is the empty string. *)
Theorem GetMasterKubeconfig_unset_fields (env : environment) (s : machine)
    (self : ref) (request : message) (context : ServicerContext) :
  request !! "target_pve" = None ->
  request !! "stack_name" = None ->
  head (trace (run env (GetMasterKubeconfig self request context) s))
    = Some (Called (get_online_pve_host "")
              (fst (env _ (get_online_pve_host "") (ext s))))
  /\ (forall e : entry,
        e ∈ trace (run env (GetMasterKubeconfig self request context) s) ->
        entry_callee e = Some "get_ssh_master_kubeconfig" ->
        entry_stack_name e = Some "").
Proof.
  intros Ht Hn.
  assert (msg_get request "target_pve" = "") as Et
    by (unfold msg_get; rewrite Ht; reflexivity).
  assert (msg_get request "stack_name" = "") as En
    by (unfold msg_get; rewrite Hn; reflexivity).
  handler_cases; rewrite ?Et, ?En in *;
    (split; [rewrite E1; reflexivity
            |intros e He Hc; split_elem He; try discriminate Hc;
             reflexivity]).
Qed.

(** ** Further properties of [serve] *)

(** X4. [serve] sets the server up in the order of the source and goes on
    only while every call returns: the calls of a run are an initial part
    of the sequence below, and every entry of the log but the last
    returned.  So the servicer is registered and the port bound before the
    server is started, and the line is printed only once it has. *)
Theorem serve_call_order (env : environment) (s : machine) :
  callees (trace (run env serve s))
    `prefix_of`
  ["grpc.aio.server"; "add_CloudServiceServicer_to_server";
   "add_insecure_port"; "start"; "print"; "wait_for_termination"]
  /\ (forall e : entry,
        e ∈ removelast (trace (run env serve s)) ->
        entry_returned e = true).
Proof.
  unfold serve, CloudServiceServicer. cbn.
  repeat env_step;
    (split; [eexists; reflexivity
            |intros en Hen; cbn in Hen; split_elem Hen; reflexivity]).
Qed.

(** X5. [serve] fails with the first failure of the set-up: a call that
    raised is the last entry of the log and [serve] raises the same
    exception.  When it is the binding of the port that raises, the server
    is not started, nothing is printed and nothing waits. *)
Theorem serve_fails_fast (env : environment) (s : machine)
    (e : entry) (x : Exn) :
  e ∈ trace (run env serve s) ->
  entry_raised e = Some x ->
  res (run env serve s) = Raised x
  /\ last (trace (run env serve s)) = Some e
  /\ (entry_callee e = Some "add_insecure_port" ->
      invoked "start" (trace (run env serve s)) = false
      /\ invoked "print" (trace (run env serve s)) = false
      /\ invoked "wait_for_termination" (trace (run env serve s)) = false).
Proof.
  unfold serve, CloudServiceServicer. cbn.
  repeat env_step; intros He Hx; split_elem He; cbn in Hx;
    try discriminate Hx; injection Hx as <-;
    (split; [reflexivity|]); (split; [reflexivity|]);
    intros Hc; try discriminate Hc; repeat split; reflexivity.
Qed.

(** X6. The servicer [serve] registers is an object made for the purpose:
    it was not in the heap before the run and it has no attribute after.
    Every other object is as it was, and so are the globals. *)
Theorem serve_registers_fresh_servicer (env : environment) (s : machine)
    (e : entry) (o : ref) :
  e ∈ trace (run env serve s) ->
  entry_servicer e = Some o ->
  heap s !! o = None
  /\ heap (final (run env serve s)) !! o = Some ∅
  /\ (forall o' : ref,
        o' <> o -> heap (final (run env serve s)) !! o' = heap s !! o')
  /\ globals (final (run env serve s)) = globals s.
Proof.
  unfold serve, CloudServiceServicer. cbn.
  repeat env_step; intros He Ho; split_elem He; cbn in Ho;
    try discriminate Ho; injection Ho as <-;
    (split; [apply not_elem_of_dom, is_fresh|]);
    (split; [apply lookup_insert_eq|]);
    (split; [intros o' Hne; apply lookup_insert_ne; congruence
            |reflexivity]).
Qed.

(** X7. One server: every call of a run of [serve] that acts on a server
    acts on the server the first call of the run, [grpc.aio.server()],
    returned. *)
Theorem serve_one_server (env : environment) (s : machine)
    (e : entry) (server : Server) :
  e ∈ trace (run env serve s) ->
  entry_server e = Some server ->
  head (trace (run env serve s))
    = Some (Called (grpc_aio_server [] []) (Returned server)).
Proof.
  unfold serve, CloudServiceServicer. cbn.
  repeat env_step; intros He Hs; split_elem He; cbn in Hs;
    try discriminate Hs; injection Hs as <-; reflexivity.
Qed.

(** X8. What [serve] prints is true: the one line it can print names the
    address of the source, and when it is printed that address is bound on
    a server that [start] has started. *)
Theorem serve_banner (env : environment) (s : machine)
    (e : entry) (line : string) :
  e ∈ trace (run env serve s) ->
  entry_printed e = Some line ->
  line = "gRPC AsyncIO server running on [::]:50051"
  /\ ports (trace (run env serve s)) = [("[::]:50051", false)]
  /\ (exists server : Server,
        Called (start server) (Returned tt) ∈ trace (run env serve s)).
Proof.
  unfold serve, CloudServiceServicer. cbn.
  repeat env_step; intros He Hl; split_elem He; cbn in Hl;
    try discriminate Hl; injection Hl as <-;
    repeat match goal with u : unit |- _ => destruct u end;
    (split; [reflexivity|]); (split; [reflexivity|]);
    eexists; do 4 apply list_elem_of_further; apply list_elem_of_here.
Qed.

End Properties.

(** * The properties at work on a concrete outside *)

Section Witnesses.
#[local] Existing Instance Demo.outside.

Lemma GetMasterKubeconfig_sequence_witness :
  trace (run (Demo.env "" "s3cret" "k3y" false)
           (GetMasterKubeconfig 1%positive Demo.request tt) Demo.boot)
    = [Called (get_online_pve_host (msg_get Demo.request "target_pve"))
         (Returned "node1.pve.example");
       Called (get_cloud_env "node1.pve.example")
         (Returned ("vars of node1.pve.example", "s3cret", "k3y"));
       Called (get_ssh_master_kubeconfig "vars of node1.pve.example"
                 (msg_get Demo.request "stack_name"))
         (Returned "kubeconfig of prod from vars of node1.pve.example")]
  /\ (exists response : message,
        res (run (Demo.env "" "s3cret" "k3y" false)
               (GetMasterKubeconfig 1%positive Demo.request tt) Demo.boot)
          = Returned response
        /\ response !! "config"
           = Some "kubeconfig of prod from vars of node1.pve.example"
        /\ msg_get response "config"
           = "kubeconfig of prod from vars of node1.pve.example"
        /\ dom response = {[ "config" ]}).
Proof.
  apply (GetMasterKubeconfig_sequence (Ext := Demo.outside) (Demo.env "" "s3cret" "k3y" false)
           Demo.boot 1%positive Demo.request tt
           "node1.pve.example" 1 "vars of node1.pve.example" "s3cret" "k3y"
           2 "kubeconfig of prod from vars of node1.pve.example" 3);
    vm_compute; reflexivity.
Defined.

Lemma GetMasterKubeconfig_raises_iff_witness :
  res (run (Demo.env "get_cloud_env" "s3cret" "k3y" false)
         (GetMasterKubeconfig 1%positive Demo.request tt) Demo.boot)
  = Raised "error in get_cloud_env".
Proof.
  apply (proj1 (GetMasterKubeconfig_raises_iff (Ext := Demo.outside)
                  (Demo.env "get_cloud_env" "s3cret" "k3y" false)
                  Demo.boot 1%positive Demo.request tt)
           "error in get_cloud_env").
  exists (Called (get_cloud_env (Ext := Demo.outside) "node1.pve.example")
            (Raised (Ext := Demo.outside) "error in get_cloud_env")).
  split; [vm_compute; apply list_elem_of_further, list_elem_of_here
         | reflexivity].
Defined.

Lemma GetMasterKubeconfig_short_circuit_witness :
  (invoked "get_cloud_env"
     (trace (run (Demo.env "get_online_pve_host" "s3cret" "k3y" false)
               (GetMasterKubeconfig 1%positive Demo.request tt) Demo.boot))
   = false
   /\ invoked "get_ssh_master_kubeconfig"
        (trace (run (Demo.env "get_online_pve_host" "s3cret" "k3y" false)
                  (GetMasterKubeconfig 1%positive Demo.request tt) Demo.boot))
      = false)
  /\ invoked "get_ssh_master_kubeconfig"
       (trace (run (Demo.env "get_cloud_env" "s3cret" "k3y" false)
                 (GetMasterKubeconfig 1%positive Demo.request tt) Demo.boot))
     = false.
Proof.
  split.
  - apply (GetMasterKubeconfig_short_circuit (Ext := Demo.outside)
             (Demo.env "get_online_pve_host" "s3cret" "k3y" false)
             Demo.boot 1%positive Demo.request tt
             (Called (get_online_pve_host (Ext := Demo.outside) "pve.example")
                (Raised (Ext := Demo.outside) "error in get_online_pve_host"))
             "error in get_online_pve_host");
      [ vm_compute; apply list_elem_of_here | reflexivity | reflexivity ].
  - apply (GetMasterKubeconfig_short_circuit (Ext := Demo.outside)
             (Demo.env "get_cloud_env" "s3cret" "k3y" false)
             Demo.boot 1%positive Demo.request tt
             (Called (get_cloud_env (Ext := Demo.outside) "node1.pve.example")
                (Raised (Ext := Demo.outside) "error in get_cloud_env"))
             "error in get_cloud_env");
      [ vm_compute; apply list_elem_of_further, list_elem_of_here
      | reflexivity | reflexivity ].
Defined.

Lemma GetMasterKubeconfig_deterministic_witness :
  res (run (Demo.env "" "s3cret" "k3y" false)
         (GetMasterKubeconfig 1%positive Demo.request tt) Demo.boot)
  = res (run (Demo.env "" "s3cret" "k3y" true)
           (GetMasterKubeconfig 2%positive Demo.request' tt) Demo.busy)
  /\ trace (run (Demo.env "" "s3cret" "k3y" false)
              (GetMasterKubeconfig 1%positive Demo.request tt) Demo.boot)
     = trace (run (Demo.env "" "s3cret" "k3y" true)
                (GetMasterKubeconfig 2%positive Demo.request' tt) Demo.busy).
Proof.
  apply (GetMasterKubeconfig_deterministic (Ext := Demo.outside)
           (fun _ _ => True)).
  - vm_compute; reflexivity.
  - vm_compute; reflexivity.
  - intros X c w1 w2 Hc _.
    destruct c; try discriminate Hc; split; (reflexivity || exact I).
  - exact I.
Defined.

Lemma GetMasterKubeconfig_ignores_secrets_witness :
  res (run (Demo.env "" "s3cret" "k3y" false)
         (GetMasterKubeconfig 1%positive Demo.request tt) Demo.boot)
  = res (run (Demo.env "" "hunter2" "rndc" false)
           (GetMasterKubeconfig 1%positive Demo.request tt) Demo.boot)
  /\ final (run (Demo.env "" "s3cret" "k3y" false)
              (GetMasterKubeconfig 1%positive Demo.request tt) Demo.boot)
     = final (run (Demo.env "" "hunter2" "rndc" false)
                (GetMasterKubeconfig 1%positive Demo.request tt) Demo.boot).
Proof.
  apply GetMasterKubeconfig_ignores_secrets.
  split; [|split]; intros; cbn; auto.
Defined.

Lemma CloudService_wire_protocol_witness :
  GetMasterKubeconfig 1%positive Demo.request tt
  = GetMasterKubeconfig 1%positive Demo.request' tt.
Proof.
  destruct CloudService_wire_protocol as (_ & _ & Hm).
  destruct (Hm (RpcMethod "GetMasterKubeconfig"
                  [("target_pve", TString); ("stack_name", TString)]
                  [("config", TString)]))
    as (_ & _ & Hreq & _); [apply list_elem_of_here|].
  apply Hreq. intros f Hf.
  apply elem_of_cons in Hf. destruct Hf as [->|Hf]; [reflexivity|].
  apply elem_of_cons in Hf. destruct Hf as [->|Hf]; [reflexivity|].
  apply elem_of_nil in Hf. destruct Hf.
Defined.

Lemma serve_listens_insecurely_witness :
  ports (trace (run (Demo.env "" "s3cret" "k3y" false) serve Demo.boot))
  = [("[::]:50051", false)].
Proof.
  apply (serve_listens_insecurely (Ext := Demo.outside) (Demo.env "" "s3cret" "k3y" false)
           Demo.boot).
  reflexivity.
Defined.

Lemma main_runs_until_terminated_witness :
  res (run (Demo.env "" "s3cret" "k3y" false) main Demo.boot) = Blocked
  /\ callees (trace (run (Demo.env "" "s3cret" "k3y" false) main Demo.boot))
     = ["grpc.aio.server"; "add_CloudServiceServicer_to_server";
        "add_insecure_port"; "start"; "print"; "wait_for_termination"].
Proof.
  apply (main_runs_until_terminated (Ext := Demo.outside) (Demo.env "" "s3cret" "k3y" false)
           Demo.boot).
  - intros server timeout w. reflexivity.
  - reflexivity.
Defined.

Lemma GetMasterKubeconfig_response_provenance_witness :
  exists (h : Host) (w1 : World) (cv : ClusterVars) (pp : PatroniPass)
         (bk : BindInternalKey) (w2 : World) (config : string) (w3 : World),
    Demo.env "" "s3cret" "k3y" false _
      (get_online_pve_host (msg_get Demo.request "target_pve"))
      (ext Demo.busy) = (Returned h, w1)
    /\ Demo.env "" "s3cret" "k3y" false _ (get_cloud_env h) w1
       = (Returned (cv, pp, bk), w2)
    /\ Demo.env "" "s3cret" "k3y" false _
         (get_ssh_master_kubeconfig cv (msg_get Demo.request "stack_name")) w2
       = (Returned config, w3)
    /\ GetKubeconfigResponse
         "kubeconfig of prod from vars of node1.pve.example"
       = GetKubeconfigResponse config
    /\ ext (final (run (Demo.env "" "s3cret" "k3y" false)
                     (GetMasterKubeconfig 1%positive Demo.request tt)
                     Demo.busy)) = w3
    /\ length (trace (run (Demo.env "" "s3cret" "k3y" false)
                        (GetMasterKubeconfig 1%positive Demo.request tt)
                        Demo.busy)) = 3.
Proof.
  apply (GetMasterKubeconfig_response_provenance (Ext := Demo.outside)
           (Demo.env "" "s3cret" "k3y" false) Demo.busy 1%positive
           Demo.request tt).
  vm_compute; reflexivity.
Defined.

Lemma GetMasterKubeconfig_unset_fields_witness :
  head (trace (run (Demo.env "" "s3cret" "k3y" false)
                 (GetMasterKubeconfig 1%positive Demo.blank tt) Demo.boot))
    = Some (Called (get_online_pve_host "")
              (fst (Demo.env "" "s3cret" "k3y" false _
                      (get_online_pve_host "") (ext Demo.boot))))
  /\ (forall e : entry,
        e ∈ trace (run (Demo.env "" "s3cret" "k3y" false)
                     (GetMasterKubeconfig 1%positive Demo.blank tt)
                     Demo.boot) ->
        entry_callee e = Some "get_ssh_master_kubeconfig" ->
        entry_stack_name e = Some "").
Proof.
  apply (GetMasterKubeconfig_unset_fields (Ext := Demo.outside)
           (Demo.env "" "s3cret" "k3y" false) Demo.boot
           1%positive Demo.blank tt);
    vm_compute; reflexivity.
Defined.

Lemma serve_fails_fast_witness :
  res (run (Demo.env "add_insecure_port" "s3cret" "k3y" false) serve
         Demo.boot)
  = Raised "error in add_insecure_port"
  /\ invoked "start"
       (trace (run (Demo.env "add_insecure_port" "s3cret" "k3y" false) serve
                 Demo.boot)) = false.
Proof.
  destruct (serve_fails_fast (Ext := Demo.outside)
              (Demo.env "add_insecure_port" "s3cret" "k3y" false) Demo.boot
              (Called (add_insecure_port (Ext := Demo.outside) 7 "[::]:50051")
                 (Raised (Ext := Demo.outside) "error in add_insecure_port"))
              "error in add_insecure_port")
    as (Hres & _ & Hport);
    [ vm_compute; do 3 apply list_elem_of_further; apply list_elem_of_here
    | reflexivity | ].
  split; [exact Hres | exact (proj1 (Hport eq_refl))].
Defined.

Lemma serve_registers_fresh_servicer_witness :
  heap Demo.busy !! fresh (dom (heap Demo.busy)) = None
  /\ heap (final (run (Demo.env "" "s3cret" "k3y" false) serve Demo.busy))
       !! fresh (dom (heap Demo.busy)) = Some ∅
  /\ (forall o' : ref,
        o' <> fresh (dom (heap Demo.busy)) ->
        heap (final (run (Demo.env "" "s3cret" "k3y" false) serve Demo.busy))
          !! o' = heap Demo.busy !! o')
  /\ globals (final (run (Demo.env "" "s3cret" "k3y" false) serve
                       Demo.busy)) = globals Demo.busy.
Proof.
  apply (serve_registers_fresh_servicer (Ext := Demo.outside)
           (Demo.env "" "s3cret" "k3y" false) Demo.busy
           (Called (add_CloudServiceServicer_to_server (Ext := Demo.outside)
                      (fresh (dom (heap Demo.busy))) 7)
              (Returned tt)));
    [ vm_compute; do 2 apply list_elem_of_further; apply list_elem_of_here
    | reflexivity ].
Defined.

Lemma serve_one_server_witness :
  head (trace (run (Demo.env "" "s3cret" "k3y" true) serve Demo.boot))
  = Some (Called (grpc_aio_server [] []) (Returned 7)).
Proof.
  apply (serve_one_server (Ext := Demo.outside)
           (Demo.env "" "s3cret" "k3y" true) Demo.boot
           (Called (wait_for_termination (Ext := Demo.outside) 7 None)
              (Returned false)));
    [ vm_compute; do 6 apply list_elem_of_further; apply list_elem_of_here
    | reflexivity ].
Defined.

Lemma serve_banner_witness :
  "gRPC AsyncIO server running on [::]:50051"
  = "gRPC AsyncIO server running on [::]:50051"
  /\ ports (trace (run (Demo.env "" "s3cret" "k3y" false) serve Demo.boot))
     = [("[::]:50051", false)]
  /\ (exists server : Server,
        Called (start server) (Returned tt)
        ∈ trace (run (Demo.env "" "s3cret" "k3y" false) serve Demo.boot)).
Proof.
  apply (serve_banner (Ext := Demo.outside)
           (Demo.env "" "s3cret" "k3y" false) Demo.boot
           (Called (print (Ext := Demo.outside)
                      "gRPC AsyncIO server running on [::]:50051")
              (Returned tt)));
    [ vm_compute; do 5 apply list_elem_of_further; apply list_elem_of_here
    | reflexivity ].
Defined.

End Witnesses.
